(** * mcp-server-perplexity: the request lifecycle of [handle_call_tool]

    A shallow embedding of [src/mcp_server_perplexity/server.py].  The two
    protocol handlers, [handle_list_tools] and [handle_call_tool], are
    written in a small reader/writer/exception monad: the reader is the
    world the handler runs in (process configuration, what the awaited
    request task does), the writer is the sequence of steps the handler
    performs, and the exception part carries Python exception objects. *)

From Stdlib Require Import String Ascii List ZArith Bool Lia.
From Stdlib Require Import DecimalString.
From Stdlib Require Import NArith Strings.Byte.
From ExtLib Require Import Structures.Monad Structures.MonadExc.
Import ListNotations.
Import MonadNotation.
Local Open Scope string_scope.
Local Open Scope monad_scope.

Set Implicit Arguments.

(** ** Python values used by the handlers *)

Module Py.

(** A Rocq string literal has no escape sequences: ["\n"] below is the two
    characters backslash and [n].  Control characters and the double quote
    are written with their decimal code. *)
Definition newline : string := String "010"%char EmptyString.
Definition dquote : string := String "034"%char EmptyString.

(** JSON-like values: what a [dict] argument or an [inputSchema] holds.  A
    [dict] keeps insertion order, hence the association list. *)
#[warnings="-register-all"]
Inductive value : Type :=
| VNone
| VBool (b : bool)
| VInt (z : Z)
| VStr (s : string)
| VList (items : list value)
| VDict (fields : list (string * value)).

(** [str(x)] of a float with an integral value below 1e16, such as
    [60.0]: the digits of the integer, then [.0]. *)
Definition str_integral_float (z : Z) : string :=
  NilZero.string_of_int (Z.to_int z) ++ ".0".

(** [str(x)] of the result of [os.getenv]: the value, or [None]. *)
Definition str_optional (o : option string) : string :=
  match o with
  | Some s => s
  | None => "None"
  end.

(** The exception classes that can reach the handler: the builtins, asyncio's
    cancellation and the hierarchy of [httpx._exceptions]. *)
Inductive exn_class : Type :=
| BaseException
| KeyboardInterrupt
| CancelledError
| Exception
| ValueError
| TypeError
| RuntimeError
| AttributeError
| LookupError
| HTTPError
| RequestError
| TransportError
| TimeoutException
| ConnectTimeout
| ReadTimeout
| NetworkError
| ConnectError
| ReadError
| RemoteProtocolError
| DecodingError
| HTTPStatusError.

Definition exn_class_eqb (a b : exn_class) : bool :=
  match a, b with
  | BaseException, BaseException
  | KeyboardInterrupt, KeyboardInterrupt
  | CancelledError, CancelledError
  | Exception, Exception
  | ValueError, ValueError
  | TypeError, TypeError
  | RuntimeError, RuntimeError
  | AttributeError, AttributeError
  | LookupError, LookupError
  | HTTPError, HTTPError
  | RequestError, RequestError
  | TransportError, TransportError
  | TimeoutException, TimeoutException
  | ConnectTimeout, ConnectTimeout
  | ReadTimeout, ReadTimeout
  | NetworkError, NetworkError
  | ConnectError, ConnectError
  | ReadError, ReadError
  | RemoteProtocolError, RemoteProtocolError
  | DecodingError, DecodingError
  | HTTPStatusError, HTTPStatusError => true
  | _, _ => false
  end.

(** The direct base class.  Since Python 3.8 [asyncio.CancelledError]
    derives from [BaseException], not from [Exception]. *)
Definition base (c : exn_class) : option exn_class :=
  match c with
  | BaseException => None
  | KeyboardInterrupt | CancelledError | Exception => Some BaseException
  | ValueError | TypeError | RuntimeError | AttributeError | LookupError
  | HTTPError => Some Exception
  | RequestError | HTTPStatusError => Some HTTPError
  | TransportError | DecodingError => Some RequestError
  | TimeoutException | NetworkError | RemoteProtocolError => Some TransportError
  | ConnectTimeout | ReadTimeout => Some TimeoutException
  | ConnectError | ReadError => Some NetworkError
  end.

Fixpoint ancestors (fuel : nat) (c : exn_class) : list exn_class :=
  match fuel with
  | O => [c]
  | S k => c :: match base c with
                | Some b => ancestors k b
                | None => []
                end
  end.

(** The hierarchy above is seven classes deep. *)
Definition mro (c : exn_class) : list exn_class := ancestors 8 c.

Definition issubclass (c d : exn_class) : bool := existsb (exn_class_eqb d) (mro c).

Definition class_name (c : exn_class) : string :=
  match c with
  | BaseException => "BaseException"
  | KeyboardInterrupt => "KeyboardInterrupt"
  | CancelledError => "CancelledError"
  | Exception => "Exception"
  | ValueError => "ValueError"
  | TypeError => "TypeError"
  | RuntimeError => "RuntimeError"
  | AttributeError => "AttributeError"
  | LookupError => "LookupError"
  | HTTPError => "HTTPError"
  | RequestError => "RequestError"
  | TransportError => "TransportError"
  | TimeoutException => "TimeoutException"
  | ConnectTimeout => "ConnectTimeout"
  | ReadTimeout => "ReadTimeout"
  | NetworkError => "NetworkError"
  | ConnectError => "ConnectError"
  | ReadError => "ReadError"
  | RemoteProtocolError => "RemoteProtocolError"
  | DecodingError => "DecodingError"
  | HTTPStatusError => "HTTPStatusError"
  end.

(** An attribute of an object: missing, bound to [None], or bound to a
    value. *)
Inductive attribute (A : Type) : Type :=
| Missing
| IsNone
| Bound (a : A).
Arguments Missing {A}.
Arguments IsNone {A}.

(** *** [textwrap.dedent]

    Lines made of blanks only are emptied; the margin is the longest common
    prefix of the leading blanks of the other lines; it is removed from
    every line that starts with it. *)

Definition is_blank (c : ascii) : bool :=
  orb (Ascii.eqb c " "%char) (Ascii.eqb c "009"%char).

Fixpoint split_lines (s : string) : list string :=
  match s with
  | EmptyString => [EmptyString]
  | String c s' =>
      if Ascii.eqb c "010"%char then EmptyString :: split_lines s'
      else match split_lines s' with
           | l :: ls => String c l :: ls
           | [] => [String c EmptyString]
           end
  end.

Definition join_lines (ls : list string) : string := String.concat newline ls.

Fixpoint all_blank (s : string) : bool :=
  match s with
  | EmptyString => true
  | String c s' => andb (is_blank c) (all_blank s')
  end.

Fixpoint leading_blanks (s : string) : string :=
  match s with
  | EmptyString => EmptyString
  | String c s' => if is_blank c then String c (leading_blanks s') else EmptyString
  end.

Fixpoint common_prefix (a b : string) : string :=
  match a, b with
  | String x a', String y b' =>
      if Ascii.eqb x y then String x (common_prefix a' b') else EmptyString
  | _, _ => EmptyString
  end.

Fixpoint strip_prefix (p s : string) : option string :=
  match p, s with
  | EmptyString, _ => Some s
  | String x p', String y s' => if Ascii.eqb x y then strip_prefix p' s' else None
  | String _ _, EmptyString => None
  end.

Definition margin_of (ls : list string) : option string :=
  fold_left (fun m l => match m with
                        | None => Some (leading_blanks l)
                        | Some p => Some (common_prefix p (leading_blanks l))
                        end)
            (filter (fun l => negb (all_blank l)) ls) None.

Definition dedent (text : string) : string :=
  let ls := map (fun l => if all_blank l then EmptyString else l) (split_lines text) in
  match margin_of ls with
  | Some m => join_lines (map (fun l => match strip_prefix m l with
                                        | Some r => r
                                        | None => l
                                        end) ls)
  | None => join_lines ls
  end.

End Py.

Import Py.

(** ** The libraries the server talks to *)

(** [httpx]: what the handler reads of a response and what it passes to
    [client.post]. *)
Module httpx.

Record Response : Type := mkResponse {
  status_code : Z;
  text : string
}.

(** [Response.is_success]: the status is a 2xx one. *)
Definition is_success (r : Response) : bool :=
  andb (200 <=? status_code r)%Z (status_code r <=? 299)%Z.

(** *** [Response.text]

    [text] is not the body: it is the body, a sequence of bytes, decoded.
    For an answer whose [Content-Type] names no charset httpx decodes with
    the codec [utf-8] and [errors="replace"]: every well-formed sequence
    is kept, and every maximal ill-formed part (a byte that starts nothing,
    or the beginning of a sequence that its next byte does not continue, or
    that the end of the body cuts short) becomes one U+FFFD.  A [str] is held
    here as the bytes of its UTF-8 form, so U+FFFD is the three bytes
    [EF BF BD]. *)

Definition between (lo hi : N) (b : byte) : bool :=
  andb (lo <=? Byte.to_N b)%N (Byte.to_N b <=? hi)%N.

Definition continuation : byte -> bool := between 0x80 0xBF.

(** The second byte a three-byte lead accepts: no overlong form after [E0],
    no surrogate after [ED]. *)
Definition second_of_three (b0 b1 : byte) : bool :=
  if between 0xE0 0xE0 b0 then between 0xA0 0xBF b1
  else if between 0xED 0xED b0 then between 0x80 0x9F b1
  else continuation b1.

(** The second byte a four-byte lead accepts: no overlong form after [F0],
    nothing above U+10FFFF after [F4]. *)
Definition second_of_four (b0 b1 : byte) : bool :=
  if between 0xF0 0xF0 b0 then between 0x90 0xBF b1
  else if between 0xF4 0xF4 b0 then between 0x80 0x8F b1
  else continuation b1.

Definition replacement : string :=
  String "239"%char (String "191"%char (String "189"%char EmptyString)).

Fixpoint decode (bs : list byte) : string :=
  match bs with
  | [] => EmptyString
  | b0 :: r0 =>
      if between 0x00 0x7F b0 then string_of_list_byte [b0] ++ decode r0
      else if between 0xC2 0xDF b0 then
        match r0 with
        | b1 :: r1 =>
            if continuation b1 then string_of_list_byte [b0; b1] ++ decode r1
            else replacement ++ decode r0
        | [] => replacement
        end
      else if between 0xE0 0xEF b0 then
        match r0 with
        | b1 :: r1 =>
            if second_of_three b0 b1 then
              match r1 with
              | b2 :: r2 =>
                  if continuation b2 then
                    string_of_list_byte [b0; b1; b2] ++ decode r2
                  else replacement ++ decode r1
              | [] => replacement
              end
            else replacement ++ decode r0
        | [] => replacement
        end
      else if between 0xF0 0xF4 b0 then
        match r0 with
        | b1 :: r1 =>
            if second_of_four b0 b1 then
              match r1 with
              | b2 :: r2 =>
                  if continuation b2 then
                    match r2 with
                    | b3 :: r3 =>
                        if continuation b3 then
                          string_of_list_byte [b0; b1; b2; b3] ++ decode r3
                        else replacement ++ decode r2
                    | [] => replacement
                    end
                  else replacement ++ decode r1
              | [] => replacement
              end
            else replacement ++ decode r0
        | [] => replacement
        end
      else replacement ++ decode r0
  end.

(** The body is well-formed UTF-8. *)
Fixpoint well_formed (bs : list byte) : bool :=
  match bs with
  | [] => true
  | b0 :: r0 =>
      if between 0x00 0x7F b0 then well_formed r0
      else if between 0xC2 0xDF b0 then
        match r0 with
        | b1 :: r1 => andb (continuation b1) (well_formed r1)
        | [] => false
        end
      else if between 0xE0 0xEF b0 then
        match r0 with
        | b1 :: b2 :: r2 =>
            andb (second_of_three b0 b1) (andb (continuation b2) (well_formed r2))
        | _ => false
        end
      else if between 0xF0 0xF4 b0 then
        match r0 with
        | b1 :: b2 :: b3 :: r3 =>
            andb (second_of_four b0 b1)
                 (andb (continuation b2) (andb (continuation b3) (well_formed r3)))
        | _ => false
        end
      else false
  end.

(** The response object of an answer with this status and this body, and no
    charset in its [Content-Type]. *)
Definition received (status : Z) (content : list byte) : Response :=
  mkResponse status (decode content).

Record Request : Type := mkRequest {
  method : string;
  url : string;
  headers : list (string * string);
  json : value;
  timeout : Z
}.

End httpx.

(** [mcp.types]: the two records the handlers build. *)
Module types.

Record Tool : Type := mkTool {
  name : string;
  description : string;
  inputSchema : value
}.

Record TextContent : Type := mkTextContent {
  type : string;
  text : string
}.

End types.

(** An exception object: its class, [str(e)], and its [response]
    attribute.  In httpx only [HTTPStatusError] sets [response]; the model
    leaves the attribute free so that every version of the library is
    covered. *)
Record exn : Type := mkExn {
  class_of : exn_class;
  str : string;
  response : attribute httpx.Response
}.

Definition new (c : exn_class) (message : string) : exn := mkExn c message Missing.

Definition isinstance (e : exn) (c : exn_class) : bool := issubclass (class_of e) c.

Inductive result (A : Type) : Type :=
| Ok (a : A)
| Raises (e : exn).
Arguments Raises {A} e.

(** ** Steps and worlds *)

(** The six [return] and [raise] statements of [handle_call_tool], by
    source line. *)
Inductive site : Type :=
| line_90
| line_116
| line_131
| line_139
| line_149
| line_151.

(** What one invocation does, in program order. *)
Inductive step : Type :=
| ReadRequestContext
| NewTransport (retries : nat)
| ClientEnter
| CreateTask (request : httpx.Request)
| AwaitShield
| TaskCancel
| AwaitTask
| ClientExit
| ExitAt (s : site).

(** The world of one invocation: the credential read at import time, and
    what each point at which the handler depends on its surroundings
    answers.  [shield_outcome] is what [await asyncio.shield(request_task)]
    gives: the response, an exception of the request, or
    [CancelledError] when the caller cancels the invocation.
    [teardown_outcome] is what [await request_task] gives after
    [request_task.cancel()]: [CancelledError] when the task was torn
    down, the response when it had already completed, or the exception it
    had already failed with.  [status_error_message] is the text httpx
    gives the [HTTPStatusError] of a response. *)
Record world : Type := mkWorld {
  PERPLEXITY_API_KEY : option string;
  request_context : result unit;
  shield_outcome : result httpx.Response;
  teardown_outcome : result httpx.Response;
  status_error_message : httpx.Response -> string
}.

(** ** The monad *)

Definition M (A : Type) : Type := world -> list step * result A.

Definition M_ret {A} (a : A) : M A := fun _ => ([], Ok a).

Definition M_bind {A B} (m : M A) (k : A -> M B) : M B :=
  fun w =>
    match m w with
    | (t, Ok a) => let (t', r) := k a w in ((t ++ t')%list, r)
    | (t, Raises e) => (t, Raises e)
    end.

Definition M_raise {A} (e : exn) : M A := fun _ => ([], Raises e).

(** [try: m  except ... as e: h e]; [h] re-raises what no clause matches. *)
Definition M_catch {A} (m : M A) (h : exn -> M A) : M A :=
  fun w =>
    match m w with
    | (t, Ok a) => (t, Ok a)
    | (t, Raises e) => let (t', r) := h e w in ((t ++ t')%list, r)
    end.

#[global] Instance Monad_M : Monad M :=
  {| ret := @M_ret; bind := @M_bind |}.

#[global] Instance MonadExc_M : MonadExc exn M :=
  {| raise := @M_raise; catch := @M_catch |}.

Definition emit (s : step) : M unit := fun _ => ([s], Ok tt).

Definition ask {A} (f : world -> A) : M A := fun w => ([], Ok (f w)).

Definition perform {A} (s : step) (f : world -> result A) : M A :=
  fun w => ([s], f w).

(** [async with client: body]: the client is closed on the way out, whether
    the body returns or raises. *)
Definition async_with {A} (body : M A) : M A :=
  fun w => let (t, r) := body w in ((ClientEnter :: t ++ [ClientExit])%list, r).

Definition return_at {A} (s : site) (a : A) : M A := emit (ExitAt s) ;; ret a.

Definition raise_at {A} (s : site) (e : exn) : M A := emit (ExitAt s) ;; raise e.

(** ** [server.py] *)

Definition PERPLEXITY_API_BASE_URL : string := "https://api.perplexity.ai".

(** [DEFAULT_TIMEOUT = 60.0], a float with an integral value. *)
Definition DEFAULT_TIMEOUT : Z := 60.

Definition description_literal : string :=
  String.concat newline
    [
      "";
      "                Perplexity equips agents with a specialized tool for efficiently";
      "                gathering source-backed information from the internet, ideal for";
      "                scenarios requiring research, fact-checking, or contextual data to";
      "                inform decisions and responses.";
      "                Each response includes citations, which provide transparent references";
      "                to the sources used for the generated answer, and choices, which";
      "                contain the model's suggested responses, enabling users to access";
      "                reliable information and diverse perspectives.";
      "                This function may encounter timeout errors due to long processing times,";
      "                but retrying the operation can lead to successful completion.";
      "                [Response structure]";
      "                - id: An ID generated uniquely for each response.";
      "                - model: The model used to generate the response.";
      "                - object: The object type, which always equals `chat.completion`.";
      "                - created: The Unix timestamp (in seconds) of when the completion was";
      "                  created.";
      "                - citations[]: Citations for the generated answer.";
      "                - choices[]: The list of completion choices the model generated for the";
      "                  input prompt.";
      "                - usage: Usage statistics for the completion request.";
      "                "
    ].

Definition inputSchema_literal : value :=
  VDict
    [ ("type", VStr "object");
      ("properties",
       VDict
         [ ("model",
            VDict
              [ ("type", VStr "string");
                ("description",
                 VStr "The name of the model that will complete your prompt.");
                ("enum", VList [ VStr "llama-3.1-sonar-small-128k-online" ]) ]);
           ("messages",
            VDict
              [ ("type", VStr "array");
                ("description",
                 VStr "A list of messages comprising the conversation so far.");
                ("items",
                 VDict
                   [ ("type", VStr "object");
                     ("properties",
                      VDict
                        [ ("content",
                           VDict
                             [ ("type", VStr "string");
                               ("description",
                                VStr "The contents of the message in this turn of conversation.") ]);
                          ("role",
                           VDict
                             [ ("type", VStr "string");
                               ("description",
                                VStr "The role of the speaker in this turn of conversation. After the (optional) system message, user and assistant roles should alternate with user then assistant, ending in user.");
                               ("enum",
                                VList [ VStr "system"; VStr "user"; VStr "assistant" ]) ]) ]);
                     ("required", VList [ VStr "content"; VStr "role" ]) ]) ]) ]);
      ("required", VList [ VStr "model"; VStr "messages" ]) ].

Definition handle_list_tools : M (list types.Tool) :=
  ret [ types.mkTool "ask_perplexity" (dedent description_literal) inputSchema_literal ].

(** The calls of [handle_call_tool] into its surroundings. *)

(** [server.request_context]: raises outside of a request. *)
Definition read_request_context : M unit :=
  perform ReadRequestContext request_context.

Definition AsyncHTTPTransport (retries : nat) : M unit :=
  emit (NewTransport retries).

(** [asyncio.create_task(client.post(...))]: from here on the request is
    in flight. *)
Definition create_task (request : httpx.Request) : M httpx.Request :=
  emit (CreateTask request) ;; ret request.

(** [await asyncio.shield(request_task)] *)
Definition await_shield (request_task : httpx.Request) : M httpx.Response :=
  perform AwaitShield shield_outcome.

(** [request_task.cancel()] *)
Definition cancel (request_task : httpx.Request) : M unit :=
  emit TaskCancel.

(** [await request_task], reached only after [cancel]. *)
Definition await (request_task : httpx.Request) : M httpx.Response :=
  perform AwaitTask teardown_outcome.

(** [response.raise_for_status()]: nothing for a 2xx status, an
    [HTTPStatusError] that carries the response otherwise. *)
Definition raise_for_status (response : httpx.Response) : M unit :=
  if httpx.is_success response then ret tt
  else
    message <- ask (fun w => status_error_message w response) ;;
    raise (mkExn HTTPStatusError message (Bound response)).

(** The expression [e.response]. *)
Definition getattr_response (e : exn) : M (option httpx.Response) :=
  match response e with
  | Bound r => ret (Some r)
  | IsNone => ret None
  | Missing =>
      raise (new AttributeError
               ("'" ++ class_name (class_of e) ++ "' object has no attribute 'response'"))
  end.

Definition cancelled_text : string := "Request was cancelled by the client.".

Definition timed_out_text : string :=
  "Request timed out after " ++ str_integral_float DEFAULT_TIMEOUT
    ++ " seconds. Please try again.".

(** The request of lines 100 to 108. *)
Definition post_request (key : option string) (arguments : value) : httpx.Request :=
  httpx.mkRequest "POST"
    (PERPLEXITY_API_BASE_URL ++ "/chat/completions")
    [ ("Authorization", "Bearer " ++ str_optional key);
      ("Content-Type", "application/json") ]
    arguments
    DEFAULT_TIMEOUT.

(** The [except asyncio.CancelledError] clause of the inner [try]. *)
Definition on_cancelled (request_task : httpx.Request) : M (list types.TextContent) :=
  cancel request_task ;;
  catch (_ <- await request_task ;; ret tt)
        (fun e' => if isinstance e' CancelledError then ret tt else raise e') ;;
  return_at line_131 [ types.mkTextContent "text" cancelled_text ].

(** The three [except] clauses of the outer [try], in source order.  The
    source text of line 148 is [f"\\nResponse: ..."]: a backslash and an
    [n], not a line break. *)
Definition on_error (e : exn) : M (list types.TextContent) :=
  if isinstance e TimeoutException then
    return_at line_139 [ types.mkTextContent "text" timed_out_text ]
  else if isinstance e HTTPError then
    let error_message := "API error: " ++ str e in
    r <- getattr_response e ;;
    let error_message :=
      match r with
      | Some r => error_message ++ "\nResponse: " ++ httpx.text r
      | None => error_message
      end in
    raise_at line_149 (new RuntimeError error_message)
  else if isinstance e Exception then
    raise_at line_151 (new RuntimeError ("Unexpected error: " ++ str e))
  else raise e.

Definition handle_call_tool (name : string) (arguments : value)
  : M (list types.TextContent) :=
  if negb (name =? "ask_perplexity") then
    raise_at line_90 (new ValueError ("Unknown tool: " ++ name))
  else
    catch
      (context <- read_request_context ;;
       transport <- AsyncHTTPTransport 2 ;;
       async_with
         (key <- ask PERPLEXITY_API_KEY ;;
          request_task <- create_task (post_request key arguments) ;;
          catch
            (response <- await_shield request_task ;;
             raise_for_status response ;;
             return_at line_116 [ types.mkTextContent "text" (httpx.text response) ])
            (fun e =>
               if isinstance e CancelledError then on_cancelled request_task
               else raise e)))
      on_error.

(** ** Outcomes

    The tagged result of the specification.  An outcome is read off a run
    from the one exit statement it reached and the value or exception it
    left with; a run that left through no [return] or [raise] statement of
    the [try] block (an exception nobody caught, or the [ValueError] of line
    90) has none. *)

Inductive Outcome : Type :=
| Success (text : string)
| TimedOut (afterSeconds : Z)
| Cancelled
| UpstreamError (message : string)
| UnexpectedError (message : string).

Definition run (A : Type) : Type := (list step * result A)%type.

Fixpoint exits (t : list step) : list site :=
  match t with
  | [] => []
  | ExitAt s :: t' => s :: exits t'
  | _ :: t' => exits t'
  end.

Fixpoint requests (t : list step) : list httpx.Request :=
  match t with
  | [] => []
  | CreateTask q :: t' => q :: requests t'
  | _ :: t' => requests t'
  end.

Definition outcome_at (s : site) (r : result (list types.TextContent))
  : option Outcome :=
  match s, r with
  | line_116, Ok [c] => Some (Success (types.text c))
  | line_131, Ok _ => Some Cancelled
  | line_139, Ok _ => Some (TimedOut DEFAULT_TIMEOUT)
  | line_149, Raises e => Some (UpstreamError (str e))
  | line_151, Raises e => Some (UnexpectedError (str e))
  | _, _ => None
  end.

Definition outcome_of (r : run (list types.TextContent)) : option Outcome :=
  match exits (fst r) with
  | [s] => outcome_at s (snd r)
  | _ => None
  end.


(** The separator of line 148 as Python reads [\\n] in a string literal:
    character 92, then [n]. *)
Definition backslash_n : string := String "092"%char (String "n"%char EmptyString).

(** The steps of an invocation up to the first suspension point. *)
Definition until_await (w : world) (arguments : value) : list step :=
  [ ReadRequestContext; NewTransport 2; ClientEnter;
    CreateTask (post_request (PERPLEXITY_API_KEY w) arguments); AwaitShield ].

(** An exception the outer [try] turns into an outcome: an [Exception], and
    when it is an [HTTPError] other than a timeout, one with a [response]
    attribute. *)
Definition has_response (e : exn) : bool :=
  match response e with
  | Missing => false
  | _ => true
  end.

Definition handled (e : exn) : bool :=
  andb (isinstance e Exception)
       (orb (isinstance e TimeoutException)
            (orb (negb (isinstance e HTTPError)) (has_response e))).

Definition classified {A} (at_await : bool) (r : result A) : bool :=
  match r with
  | Ok _ => true
  | Raises e => orb (andb at_await (isinstance e CancelledError)) (handled e)
  end.

Definition classifiable (w : world) : bool :=
  andb (classified false (request_context w))
       (andb (classified true (shield_outcome w))
             (classified true (teardown_outcome w))).

(** The task awaited after [cancel] ended by cancellation, or had a
    response already. *)
Definition torn_down (r : result httpx.Response) : bool :=
  match r with
  | Ok _ => true
  | Raises e => isinstance e CancelledError
  end.

(** ** The client around the request

    [client_discipline false t]: in [t] the client is entered only while
    closed and left only while open, the request task is created, awaited
    and cancelled only while the client is open, and the client is closed
    at the end. *)
Fixpoint client_discipline (opened : bool) (t : list step) : bool :=
  match t with
  | [] => negb opened
  | ClientEnter :: t' => andb (negb opened) (client_discipline true t')
  | ClientExit :: t' => andb opened (client_discipline false t')
  | CreateTask _ :: t' | AwaitShield :: t' | TaskCancel :: t' | AwaitTask :: t' =>
      andb opened (client_discipline opened t')
  | _ :: t' => client_discipline opened t'
  end.

(** ** Sample invocations *)

Module Sample.

Definition arguments : value :=
  VDict
    [ ("model", VStr "llama-3.1-sonar-small-128k-online");
      ("messages",
       VList [ VDict [ ("content", VStr "What is Rocq?"); ("role", VStr "user") ] ]) ].

(** [{"id":"x","choices":[]}] *)
Definition body_200 : string :=
  "{" ++ dquote ++ "id" ++ dquote ++ ":" ++ dquote ++ "x" ++ dquote ++ ","
      ++ dquote ++ "choices" ++ dquote ++ ":[]}".

(** [{"error":"bad key"}] *)
Definition body_401 : string :=
  "{" ++ dquote ++ "error" ++ dquote ++ ":" ++ dquote ++ "bad key" ++ dquote ++ "}".

(** What httpx says of the 401 answer below. *)
Definition unauthorized_message : string :=
  "Client error '401 Unauthorized' for url 'https://api.perplexity.ai/chat/completions'"
    ++ newline
    ++ "For more information check: https://developer.mozilla.org/en-US/docs/Web/HTTP/Status/401".

Definition world_of (shield teardown : result httpx.Response) : world :=
  mkWorld (Some "pplx-key") (Ok tt) shield teardown (fun _ => unauthorized_message).

(** The awaited task ended by cancellation. *)
Definition task_cancelled : result httpx.Response :=
  Raises (new CancelledError "").

Definition answered : world := world_of (Ok (httpx.mkResponse 200 body_200)) task_cancelled.

Definition unauthorized : world := world_of (Ok (httpx.mkResponse 401 body_401)) task_cancelled.

Definition timed_out : world := world_of (Raises (new ReadTimeout "")) task_cancelled.

Definition cancelled : world := world_of (Raises (new CancelledError "")) task_cancelled.

(** Cancelled while the request task had just failed with a timeout. *)
Definition cancelled_after_failure : world :=
  world_of (Raises (new CancelledError "")) (Raises (new ReadTimeout "")).

(** DNS resolution failed: httpx raises [ConnectError], which has no
    [response] attribute. *)
Definition dns_failure : world :=
  world_of (Raises (new ConnectError "[Errno -2] Name or service not known")) task_cancelled.

(** The same failure under a library whose errors all carry
    [response = None]. *)
Definition dns_failure_with_none : world :=
  world_of (Raises (mkExn ConnectError "[Errno -2] Name or service not known" IsNone))
           task_cancelled.

(** The arguments could not be serialised. *)
Definition type_error : world :=
  world_of (Raises (new TypeError "Object of type set is not JSON serializable")) task_cancelled.

(** [PERPLEXITY_API_KEY] is not set in the environment. *)
Definition no_credential : world :=
  mkWorld None (Ok tt) (Ok (httpx.mkResponse 401 body_401)) task_cancelled
    (fun _ => unauthorized_message).

(** The handler runs outside of a request. *)
Definition no_context : world :=
  mkWorld (Some "pplx-key") (Raises (new LookupError "")) task_cancelled task_cancelled
    (fun _ => unauthorized_message).

(** The bytes of [{"a":"caf\xE9"}]: the last letter is Latin-1, which is
    not UTF-8. *)
Definition latin1_body : list byte :=
  (list_byte_of_string ("{" ++ dquote ++ "a" ++ dquote ++ ":" ++ dquote ++ "caf")
     ++ [xe9] ++ list_byte_of_string (dquote ++ "}"))%list.

(** The same document in UTF-8: the last letter is the bytes [C3 A9]. *)
Definition utf8_body : list byte :=
  (list_byte_of_string ("{" ++ dquote ++ "a" ++ dquote ++ ":" ++ dquote ++ "caf")
     ++ [xc3; xa9] ++ list_byte_of_string (dquote ++ "}"))%list.

(** The upstream answers 200 with these bytes. *)
Definition answered_with (content : list byte) : world :=
  world_of (Ok (httpx.received 200 content)) task_cancelled.

(** The upstream answers 200 with the very words of the cancellation
    message. *)
Definition echo_of_cancellation : world :=
  world_of (Ok (httpx.mkResponse 200 cancelled_text)) task_cancelled.

(** The request failed with a timeout and nobody cancelled. *)
Definition read_timeout : world :=
  world_of (Raises (new ReadTimeout "")) task_cancelled.

End Sample.

(** ** The exception hierarchy *)

Lemma timeout_is_http_error c :
  issubclass c TimeoutException = true -> issubclass c HTTPError = true.
Proof. destruct c; cbn; intro H; first [ reflexivity | discriminate H ]. Qed.

Lemma http_error_is_exception c :
  issubclass c HTTPError = true -> issubclass c Exception = true.
Proof. destruct c; cbn; intro H; first [ reflexivity | discriminate H ]. Qed.

Lemma cancelled_is_not_exception c :
  issubclass c CancelledError = true -> issubclass c Exception = false.
Proof. destruct c; cbn; intro H; first [ reflexivity | discriminate H ]. Qed.

Lemma issubclass_refl c : issubclass c c = true.
Proof. destruct c; reflexivity. Qed.

(** ** The clauses of the outer [try] *)

Ltac step_handler :=
  cbv beta iota delta
    [read_request_context AsyncHTTPTransport async_with
     create_task await_shield await cancel raise_for_status getattr_response
     return_at raise_at perform emit ask
     bind ret raise catch Monad_M MonadExc_M M_bind M_ret M_raise M_catch].

Lemma on_error_timeout e w :
  isinstance e TimeoutException = true ->
  on_error e w = ([ExitAt line_139], Ok [ types.mkTextContent "text" timed_out_text ]).
Proof. intro H. unfold on_error; step_handler. rewrite H. reflexivity. Qed.

Lemma on_error_with_response e r w :
  isinstance e TimeoutException = false ->
  isinstance e HTTPError = true ->
  response e = Bound r ->
  on_error e w =
    ([ExitAt line_149],
     Raises (new RuntimeError
               ("API error: " ++ str e ++ backslash_n ++ "Response: " ++ httpx.text r))).
Proof. intros Ht Hh Hr. unfold on_error; step_handler. rewrite Ht, Hh, Hr. reflexivity. Qed.

Lemma on_error_response_none e w :
  isinstance e TimeoutException = false ->
  isinstance e HTTPError = true ->
  response e = IsNone ->
  on_error e w = ([ExitAt line_149], Raises (new RuntimeError ("API error: " ++ str e))).
Proof. intros Ht Hh Hr. unfold on_error; step_handler. rewrite Ht, Hh, Hr. reflexivity. Qed.

Lemma on_error_response_missing e w :
  isinstance e TimeoutException = false ->
  isinstance e HTTPError = true ->
  response e = Missing ->
  on_error e w =
    ([], Raises (new AttributeError
                   ("'" ++ class_name (class_of e)
                        ++ "' object has no attribute 'response'"))).
Proof. intros Ht Hh Hr. unfold on_error; step_handler. rewrite Ht, Hh, Hr. reflexivity. Qed.

Lemma on_error_exception e w :
  isinstance e HTTPError = false ->
  isinstance e Exception = true ->
  on_error e w =
    ([ExitAt line_151], Raises (new RuntimeError ("Unexpected error: " ++ str e))).
Proof.
  intros Hh He. unfold on_error; step_handler.
  destruct (isinstance e TimeoutException) eqn:Ht.
  - apply timeout_is_http_error in Ht. unfold isinstance in Hh. congruence.
  - rewrite Hh, He. reflexivity.
Qed.

Lemma on_error_uncaught e w :
  isinstance e Exception = false ->
  on_error e w = ([], Raises e).
Proof.
  intro He. unfold on_error; step_handler.
  destruct (isinstance e HTTPError) eqn:Hh.
  - apply http_error_is_exception in Hh. unfold isinstance in He. congruence.
  - destruct (isinstance e TimeoutException) eqn:Ht.
    + apply timeout_is_http_error in Ht. unfold isinstance in Hh. congruence.
    + rewrite He. reflexivity.
Qed.

(** ** The runs of [handle_call_tool] *)

Lemma run_unknown name arguments w :
  name <> "ask_perplexity" ->
  handle_call_tool name arguments w =
    ([ExitAt line_90], Raises (new ValueError ("Unknown tool: " ++ name))).
Proof.
  intro H. unfold handle_call_tool.
  destruct (String.eqb_spec name "ask_perplexity") as [E | _]; [contradiction |].
  reflexivity.
Qed.

Lemma run_no_context arguments w e :
  request_context w = Raises e ->
  handle_call_tool "ask_perplexity" arguments w =
    (ReadRequestContext :: fst (on_error e w), snd (on_error e w)).
Proof.
  intro H. unfold handle_call_tool. cbn [String.eqb Ascii.eqb Bool.eqb negb].
  step_handler. rewrite H. destruct (on_error e w). reflexivity.
Qed.

Lemma on_cancelled_torn_down request_task w :
  torn_down (teardown_outcome w) = true ->
  on_cancelled request_task w =
    ([TaskCancel; AwaitTask; ExitAt line_131],
     Ok [ types.mkTextContent "text" cancelled_text ]).
Proof.
  intro H. unfold on_cancelled; step_handler.
  destruct (teardown_outcome w) as [r | e']; cbn [torn_down] in H.
  - reflexivity.
  - rewrite H. reflexivity.
Qed.

Lemma on_cancelled_failure request_task w e' :
  teardown_outcome w = Raises e' ->
  isinstance e' CancelledError = false ->
  on_cancelled request_task w = ([TaskCancel; AwaitTask], Raises e').
Proof.
  intros H Hc. unfold on_cancelled; step_handler.
  rewrite H, Hc. reflexivity.
Qed.

Ltac enter_handler Hctx :=
  unfold handle_call_tool; cbn [String.eqb Ascii.eqb Bool.eqb negb];
  step_handler; rewrite Hctx.

Lemma run_answered arguments w r :
  request_context w = Ok tt ->
  shield_outcome w = Ok r ->
  httpx.is_success r = true ->
  handle_call_tool "ask_perplexity" arguments w =
    ((until_await w arguments ++ [ExitAt line_116; ClientExit])%list,
     Ok [ types.mkTextContent "text" (httpx.text r) ]).
Proof.
  intros Hctx Hs H2xx. enter_handler Hctx. rewrite Hs, H2xx. reflexivity.
Qed.

Lemma run_status_error arguments w r :
  request_context w = Ok tt ->
  shield_outcome w = Ok r ->
  httpx.is_success r = false ->
  handle_call_tool "ask_perplexity" arguments w =
    ((until_await w arguments ++ [ClientExit; ExitAt line_149])%list,
     Raises (new RuntimeError
               ("API error: " ++ status_error_message w r ++ backslash_n
                  ++ "Response: " ++ httpx.text r))).
Proof.
  intros Hctx Hs H2xx. enter_handler Hctx. rewrite Hs, H2xx.
  cbv beta iota.
  change (isinstance (mkExn HTTPStatusError _ _) CancelledError) with false.
  cbv beta iota.
  rewrite on_error_with_response with (r := r); reflexivity.
Qed.

Lemma run_raised arguments w e :
  request_context w = Ok tt ->
  shield_outcome w = Raises e ->
  isinstance e CancelledError = false ->
  handle_call_tool "ask_perplexity" arguments w =
    ((until_await w arguments ++ ClientExit :: fst (on_error e w))%list,
     snd (on_error e w)).
Proof.
  intros Hctx Hs Hc. enter_handler Hctx. rewrite Hs, Hc.
  destruct (on_error e w). reflexivity.
Qed.

Lemma run_cancelled arguments w e :
  request_context w = Ok tt ->
  shield_outcome w = Raises e ->
  isinstance e CancelledError = true ->
  torn_down (teardown_outcome w) = true ->
  handle_call_tool "ask_perplexity" arguments w =
    ((until_await w arguments
        ++ [TaskCancel; AwaitTask; ExitAt line_131; ClientExit])%list,
     Ok [ types.mkTextContent "text" cancelled_text ]).
Proof.
  intros Hctx Hs Hc Ht. enter_handler Hctx. rewrite Hs, Hc.
  rewrite on_cancelled_torn_down by exact Ht. reflexivity.
Qed.

Lemma run_cancelled_failure arguments w e e' :
  request_context w = Ok tt ->
  shield_outcome w = Raises e ->
  isinstance e CancelledError = true ->
  teardown_outcome w = Raises e' ->
  isinstance e' CancelledError = false ->
  handle_call_tool "ask_perplexity" arguments w =
    ((until_await w arguments
        ++ [TaskCancel; AwaitTask; ClientExit] ++ fst (on_error e' w))%list,
     snd (on_error e' w)).
Proof.
  intros Hctx Hs Hc Ht Hc'. enter_handler Hctx. rewrite Hs, Hc.
  rewrite on_cancelled_failure with (e' := e') by assumption.
  destruct (on_error e' w). reflexivity.
Qed.

(** ** Traces *)

Lemma exits_app t t' : exits (t ++ t') = (exits t ++ exits t')%list.
Proof.
  induction t as [| s t IH]; [reflexivity |].
  destruct s; cbn [exits app]; rewrite IH; reflexivity.
Qed.

Lemma requests_app t t' : requests (t ++ t') = (requests t ++ requests t')%list.
Proof.
  induction t as [| s t IH]; [reflexivity |].
  destruct s; cbn [requests app]; rewrite IH; reflexivity.
Qed.

Lemma exits_until_await w arguments : exits (until_await w arguments) = [].
Proof. reflexivity. Qed.

Lemma requests_until_await w arguments :
  requests (until_await w arguments) = [ post_request (PERPLEXITY_API_KEY w) arguments ].
Proof. reflexivity. Qed.

(** The outer clauses start no request. *)
Lemma on_error_requests e w : requests (fst (on_error e w)) = [].
Proof.
  unfold on_error; step_handler.
  destruct (isinstance e TimeoutException); [reflexivity |].
  destruct (isinstance e HTTPError).
  - destruct (response e); reflexivity.
  - destruct (isinstance e Exception); reflexivity.
Qed.

(** Every handled exception leaves through one exit statement of the outer
    clauses, with an outcome. *)
Lemma on_error_handled e w :
  handled e = true ->
  exists s o, fst (on_error e w) = [ExitAt s] /\ outcome_at s (snd (on_error e w)) = Some o.
Proof.
  unfold handled. intro H.
  apply andb_prop in H. destruct H as [Hexc H].
  destruct (isinstance e TimeoutException) eqn:Ht.
  - rewrite on_error_timeout by exact Ht.
    exists line_139, (TimedOut DEFAULT_TIMEOUT). split; reflexivity.
  - destruct (isinstance e HTTPError) eqn:Hh.
    + cbn [orb negb] in H. unfold has_response in H.
      destruct (response e) as [ | | r] eqn:Hr; [discriminate H | |].
      * rewrite on_error_response_none by assumption.
        exists line_149, (UpstreamError ("API error: " ++ str e)). split; reflexivity.
      * rewrite on_error_with_response with (r := r) by assumption.
        eexists line_149, _. split; reflexivity.
    + rewrite on_error_exception by assumption.
      eexists line_151, _. split; reflexivity.
Qed.

Lemma outcome_of_single before after s res :
  exits before = [] ->
  exits after = [] ->
  outcome_of ((before ++ ExitAt s :: after)%list, res) = outcome_at s res.
Proof.
  intros Hb Ha. unfold outcome_of. cbn [fst snd].
  rewrite exits_app, Hb. cbn [exits app]. rewrite Ha. reflexivity.
Qed.

(** ** [httpx.Response.is_success] *)

Lemma is_success_2xx r :
  (200 <= httpx.status_code r <= 299)%Z -> httpx.is_success r = true.
Proof.
  intros [Hlo Hhi]. unfold httpx.is_success.
  apply andb_true_intro. split; apply Z.leb_le; assumption.
Qed.


(** ** The tool registry *)

(** What [dedent] leaves of the description: the margin of sixteen blanks
    is gone, the two continuation lines keep their two blanks, and the
    closing line of blanks is empty. *)
Lemma description_dedented :
  dedent description_literal =
  String.concat newline
    [ "";
      "Perplexity equips agents with a specialized tool for efficiently";
      "gathering source-backed information from the internet, ideal for";
      "scenarios requiring research, fact-checking, or contextual data to";
      "inform decisions and responses.";
      "Each response includes citations, which provide transparent references";
      "to the sources used for the generated answer, and choices, which";
      "contain the model's suggested responses, enabling users to access";
      "reliable information and diverse perspectives.";
      "This function may encounter timeout errors due to long processing times,";
      "but retrying the operation can lead to successful completion.";
      "[Response structure]";
      "- id: An ID generated uniquely for each response.";
      "- model: The model used to generate the response.";
      "- object: The object type, which always equals `chat.completion`.";
      "- created: The Unix timestamp (in seconds) of when the completion was";
      "  created.";
      "- citations[]: Citations for the generated answer.";
      "- choices[]: The list of completion choices the model generated for the";
      "  input prompt.";
      "- usage: Usage statistics for the completion request.";
      "" ].
Proof. vm_compute. reflexivity. Qed.

(** C8: listing the operations is pure and idempotent.  In every world the
    call performs no step and returns a list of exactly one descriptor, whose
    name is [ask_perplexity]; two calls, in whatever worlds, return the same
    run, hence structurally identical descriptors. *)
Theorem list_tools_one_fixed_descriptor (w1 w2 : world) :
  handle_list_tools w1 = handle_list_tools w2 /\
  exists d : types.Tool,
    handle_list_tools w1 = ([], Ok [d]) /\ types.name d = "ask_perplexity".
Proof.
  split; [reflexivity |].
  eexists. split; reflexivity.
Qed.

(** ** Dispatch *)

(** C2: an operation name other than [ask_perplexity] makes the handler
    raise [ValueError("Unknown tool: <name>")] at once: the raise of line 90
    is the only step of the run, and no request is created. *)
Theorem unknown_operation_raises_before_any_request
  (name : string) (arguments : value) (w : world) :
  name <> "ask_perplexity" ->
  handle_call_tool name arguments w =
    ([ExitAt line_90], Raises (new ValueError ("Unknown tool: " ++ name))) /\
  requests (fst (handle_call_tool name arguments w)) = [].
Proof.
  intro H. rewrite run_unknown by exact H. split; reflexivity.
Qed.

Lemma unknown_operation_witness :
  handle_call_tool "ask_google" Sample.arguments Sample.answered =
    ([ExitAt line_90], Raises (new ValueError "Unknown tool: ask_google")) /\
  requests (fst (handle_call_tool "ask_google" Sample.arguments Sample.answered)) = [].
Proof.
  apply (unknown_operation_raises_before_any_request
           (name := "ask_google") Sample.arguments Sample.answered).
  discriminate.
Defined.

(** ** The request executor *)

(** *** Decoding the body *)

Lemma decode_well_formed_bounded (n : nat) :
  forall bs : list byte,
    length bs <= n ->
    httpx.well_formed bs = true ->
    httpx.decode bs = string_of_list_byte bs.
Proof.
  induction n as [| n IH]; intros bs Hlen Hwf.
  - destruct bs; [reflexivity | cbn in Hlen; lia].
  - destruct bs as [| b0 r0]; [reflexivity |].
    cbn [length] in Hlen. cbn [httpx.decode httpx.well_formed] in *.
    destruct (httpx.between 0 127 b0).
    { cbn. f_equal. apply IH; [lia | exact Hwf]. }
    destruct (httpx.between 194 223 b0).
    { destruct r0 as [| b1 r1]; [discriminate Hwf |].
      apply andb_prop in Hwf. destruct Hwf as [H1 Hwf]. rewrite H1.
      cbn in *. do 2 f_equal. apply IH; [lia | exact Hwf]. }
    destruct (httpx.between 224 239 b0).
    { destruct r0 as [| b1 [| b2 r2]]; try discriminate Hwf.
      apply andb_prop in Hwf. destruct Hwf as [H1 Hwf].
      apply andb_prop in Hwf. destruct Hwf as [H2 Hwf]. rewrite H1, H2.
      cbn in *. do 3 f_equal. apply IH; [lia | exact Hwf]. }
    destruct (httpx.between 240 244 b0); [| discriminate Hwf].
    destruct r0 as [| b1 [| b2 [| b3 r3]]]; try discriminate Hwf.
    apply andb_prop in Hwf. destruct Hwf as [H1 Hwf].
    apply andb_prop in Hwf. destruct Hwf as [H2 Hwf].
    apply andb_prop in Hwf. destruct Hwf as [H3 Hwf]. rewrite H1, H2, H3.
    cbn in *. do 4 f_equal. apply IH; [lia | exact Hwf].
Qed.

(** Decoding keeps a well-formed body byte for byte. *)
Lemma decode_well_formed (bs : list byte) :
  httpx.well_formed bs = true -> httpx.decode bs = string_of_list_byte bs.
Proof. apply decode_well_formed_bounded with (n := length bs). lia. Qed.

(** C3, as the handler has it: when the upstream answers with a 2xx status,
    the handler returns one text content whose text is [response.text], the
    body as httpx decodes it (UTF-8, ill-formed parts replaced by U+FFFD),
    with no parsing, re-serialisation or validation; the outcome is [Success]
    of that text.  When the body is well-formed UTF-8 the text is the body,
    byte for byte. *)
Theorem success_text_is_decoded_body
  (arguments : value) (w : world) (status : Z) (content : list byte) :
  request_context w = Ok tt ->
  shield_outcome w = Ok (httpx.received status content) ->
  (200 <= status <= 299)%Z ->
  snd (handle_call_tool "ask_perplexity" arguments w) =
    Ok [ types.mkTextContent "text" (httpx.decode content) ] /\
  outcome_of (handle_call_tool "ask_perplexity" arguments w) =
    Some (Success (httpx.decode content)) /\
  (httpx.well_formed content = true ->
     snd (handle_call_tool "ask_perplexity" arguments w) =
       Ok [ types.mkTextContent "text" (string_of_list_byte content) ]).
Proof.
  intros Hctx Hs H2xx.
  assert (Hok : httpx.is_success (httpx.received status content) = true).
  { apply is_success_2xx. exact H2xx. }
  rewrite run_answered with (r := httpx.received status content) by assumption.
  split; [reflexivity |]. split; [reflexivity |].
  intro Hwf. cbn [snd httpx.received httpx.text].
  rewrite decode_well_formed by exact Hwf. reflexivity.
Qed.

Lemma success_decoded_witness :
  snd (handle_call_tool "ask_perplexity" Sample.arguments
         (Sample.answered_with Sample.utf8_body)) =
    Ok [ types.mkTextContent "text" (string_of_list_byte Sample.utf8_body) ].
Proof.
  apply (success_text_is_decoded_body Sample.arguments
           (Sample.answered_with Sample.utf8_body)
           (status := 200%Z) (content := Sample.utf8_body)).
  - reflexivity.
  - reflexivity.
  - lia.
  - reflexivity.
Defined.

(** A 200 answer whose body is not UTF-8: the byte [E9] comes back as
    U+FFFD, so the text returned is not the body that was received. *)
Lemma ill_formed_body_is_not_passed_byte_for_byte :
  let r := handle_call_tool "ask_perplexity" Sample.arguments
             (Sample.answered_with Sample.latin1_body) in
  snd r =
    Ok [ types.mkTextContent "text"
           ("{" ++ dquote ++ "a" ++ dquote ++ ":" ++ dquote ++ "caf"
                ++ httpx.replacement ++ dquote ++ "}") ] /\
  snd r <> Ok [ types.mkTextContent "text" (string_of_list_byte Sample.latin1_body) ] /\
  outcome_of r <> Some (Success (string_of_list_byte Sample.latin1_body)).
Proof.
  cbv zeta. split; [reflexivity |]. split.
  - intro H. vm_compute in H. discriminate H.
  - intro H. vm_compute in H. discriminate H.
Qed.

(** C4: when the request ends in an httpx timeout, the handler returns, as an
    ordinary text result and not as an exception, the message built from
    [DEFAULT_TIMEOUT], which is also the timeout the request was created
    with. *)
Theorem timeout_is_reported_as_text
  (arguments : value) (w : world) (e : exn) :
  request_context w = Ok tt ->
  shield_outcome w = Raises e ->
  isinstance e TimeoutException = true ->
  snd (handle_call_tool "ask_perplexity" arguments w) =
    Ok [ types.mkTextContent "text"
           "Request timed out after 60.0 seconds. Please try again." ] /\
  outcome_of (handle_call_tool "ask_perplexity" arguments w) =
    Some (TimedOut DEFAULT_TIMEOUT) /\
  map httpx.timeout (requests (fst (handle_call_tool "ask_perplexity" arguments w))) =
    [ DEFAULT_TIMEOUT ] /\
  DEFAULT_TIMEOUT = 60%Z.
Proof.
  intros Hctx Hs Ht.
  assert (Hc : isinstance e CancelledError = false).
  { destruct (isinstance e CancelledError) eqn:Hc; [| reflexivity].
    apply cancelled_is_not_exception in Hc.
    apply timeout_is_http_error, http_error_is_exception in Ht.
    unfold isinstance in Ht. congruence. }
  rewrite run_raised with (e := e) by assumption.
  rewrite on_error_timeout by exact Ht. repeat split.
Qed.

Lemma timeout_witness :
  snd (handle_call_tool "ask_perplexity" Sample.arguments Sample.timed_out) =
    Ok [ types.mkTextContent "text"
           "Request timed out after 60.0 seconds. Please try again." ] /\
  outcome_of (handle_call_tool "ask_perplexity" Sample.arguments Sample.timed_out) =
    Some (TimedOut DEFAULT_TIMEOUT) /\
  map httpx.timeout
      (requests (fst (handle_call_tool "ask_perplexity" Sample.arguments
                        Sample.timed_out))) = [ DEFAULT_TIMEOUT ] /\
  DEFAULT_TIMEOUT = 60%Z.
Proof.
  apply (timeout_is_reported_as_text Sample.arguments Sample.timed_out
           (e := new ReadTimeout "")); reflexivity.
Defined.






(** C10: in that message the status text and [Response: <body>] are joined
    by the two characters backslash and [n], not by a line break: the message
    is [API error: ] followed by the status text, the two-character
    separator, [Response: ] and the body. *)
Theorem api_error_message_joined_by_backslash_n
  (arguments : value) (w : world) (r : httpx.Response) :
  request_context w = Ok tt ->
  shield_outcome w = Ok r ->
  httpx.is_success r = false ->
  snd (handle_call_tool "ask_perplexity" arguments w) =
    Raises (new RuntimeError
              ("API error: " ++ status_error_message w r ++ backslash_n
                 ++ "Response: " ++ httpx.text r)) /\
  String.length backslash_n = 2 /\
  backslash_n <> newline.
Proof.
  intros Hctx Hs Hst.
  rewrite run_status_error with (r := r) by assumption.
  split; [reflexivity |]. split; [reflexivity | discriminate].
Qed.

Lemma api_error_message_witness :
  snd (handle_call_tool "ask_perplexity" Sample.arguments Sample.unauthorized) =
    Raises (new RuntimeError
              ("API error: " ++ Sample.unauthorized_message
                 ++ backslash_n ++ "Response: " ++ Sample.body_401)) /\
  String.length backslash_n = 2 /\
  backslash_n <> newline.
Proof.
  apply (api_error_message_joined_by_backslash_n Sample.arguments Sample.unauthorized
           (r := httpx.mkResponse 401 Sample.body_401)); reflexivity.
Defined.

(** The same holds for whatever [HTTPError] with a response reaches the
    clause. *)
Lemma api_error_message_of_any_http_error (e : exn) (r : httpx.Response) (w : world) :
  isinstance e TimeoutException = false ->
  isinstance e HTTPError = true ->
  response e = Bound r ->
  snd (on_error e w) =
    Raises (new RuntimeError
              ("API error: " ++ str e ++ backslash_n ++ "Response: " ++ httpx.text r)).
Proof.
  intros Ht Hh Hr. rewrite on_error_with_response with (r := r) by assumption.
  reflexivity.
Qed.

(** ** The outbound request *)

Lemma requests_of_run (arguments : value) (w : world) :
  request_context w = Ok tt ->
  requests (fst (handle_call_tool "ask_perplexity" arguments w)) =
    [ post_request (PERPLEXITY_API_KEY w) arguments ].
Proof.
  intro Hctx.
  destruct (shield_outcome w) as [r | e] eqn:Hs.
  - destruct (httpx.is_success r) eqn:H2xx.
    + rewrite run_answered with (r := r) by assumption.
      cbn [fst]. rewrite requests_app, requests_until_await. reflexivity.
    + rewrite run_status_error with (r := r) by assumption.
      cbn [fst]. rewrite requests_app, requests_until_await. reflexivity.
  - destruct (isinstance e CancelledError) eqn:Hc.
    + destruct (torn_down (teardown_outcome w)) eqn:Ht.
      * rewrite run_cancelled with (e := e) by assumption.
        cbn [fst]. rewrite requests_app, requests_until_await. reflexivity.
      * destruct (teardown_outcome w) as [r' | e'] eqn:Hd; [discriminate Ht |].
        cbn [torn_down] in Ht.
        rewrite run_cancelled_failure with (e := e) (e' := e') by assumption.
        cbn [fst]. rewrite !requests_app, requests_until_await, on_error_requests.
        reflexivity.
    + rewrite run_raised with (e := e) by assumption.
      cbn [fst]. rewrite requests_app, requests_until_await.
      cbn [requests app]. rewrite on_error_requests. reflexivity.
Qed.

(** C9: an invocation of [ask_perplexity] creates exactly one request: a POST
    to [https://api.perplexity.ai/chat/completions] whose JSON body is the
    arguments object itself, with the header [Authorization: Bearer <key>]
    for the key read from the environment at start-up and the header
    [Content-Type: application/json]. *)
Theorem request_is_post_of_arguments
  (arguments : value) (w : world) (key : string) :
  request_context w = Ok tt ->
  PERPLEXITY_API_KEY w = Some key ->
  requests (fst (handle_call_tool "ask_perplexity" arguments w)) =
    [ httpx.mkRequest "POST" "https://api.perplexity.ai/chat/completions"
        [ ("Authorization", "Bearer " ++ key);
          ("Content-Type", "application/json") ]
        arguments DEFAULT_TIMEOUT ].
Proof.
  intros Hctx Hkey. rewrite requests_of_run by exact Hctx.
  unfold post_request. rewrite Hkey. reflexivity.
Qed.

Lemma request_witness :
  requests (fst (handle_call_tool "ask_perplexity" Sample.arguments Sample.answered)) =
    [ httpx.mkRequest "POST" "https://api.perplexity.ai/chat/completions"
        [ ("Authorization", "Bearer pplx-key");
          ("Content-Type", "application/json") ]
        Sample.arguments DEFAULT_TIMEOUT ].
Proof.
  apply (request_is_post_of_arguments Sample.arguments Sample.answered
           (key := "pplx-key")); reflexivity.
Defined.

(** ** Failures other than a status error *)

Lemma exception_is_not_cancellation (e : exn) :
  isinstance e Exception = true -> isinstance e CancelledError = false.
Proof.
  intro He. destruct (isinstance e CancelledError) eqn:Hc; [| reflexivity].
  apply cancelled_is_not_exception in Hc. unfold isinstance in He. congruence.
Qed.

(** C6, as the handler has it: an exception that is an [Exception] but not
    an [httpx.HTTPError], raised when the request context is read or by the
    awaited request, leaves as [RuntimeError("Unexpected error: <str(e)>")],
    the outcome [UnexpectedError]. *)
Theorem other_exception_is_unexpected_error
  (arguments : value) (w : world) (e : exn) :
  request_context w = Raises e \/
    (request_context w = Ok tt /\ shield_outcome w = Raises e) ->
  isinstance e Exception = true ->
  isinstance e HTTPError = false ->
  snd (handle_call_tool "ask_perplexity" arguments w) =
    Raises (new RuntimeError ("Unexpected error: " ++ str e)) /\
  outcome_of (handle_call_tool "ask_perplexity" arguments w) =
    Some (UnexpectedError ("Unexpected error: " ++ str e)).
Proof.
  intros Hat He Hh.
  destruct Hat as [Hctx | [Hctx Hs]].
  - rewrite run_no_context with (e := e) by exact Hctx.
    rewrite on_error_exception by assumption. split; reflexivity.
  - rewrite run_raised with (e := e)
      by (try apply exception_is_not_cancellation; assumption).
    rewrite on_error_exception by assumption. split; reflexivity.
Qed.

Lemma other_exception_witness :
  snd (handle_call_tool "ask_perplexity" Sample.arguments Sample.type_error) =
    Raises (new RuntimeError
              "Unexpected error: Object of type set is not JSON serializable") /\
  outcome_of (handle_call_tool "ask_perplexity" Sample.arguments Sample.type_error) =
    Some (UnexpectedError
            "Unexpected error: Object of type set is not JSON serializable").
Proof.
  apply (other_exception_is_unexpected_error Sample.arguments Sample.type_error
           (e := new TypeError "Object of type set is not JSON serializable")).
  - right. split; reflexivity.
  - reflexivity.
  - reflexivity.
Defined.

(** A DNS failure is an [httpx.ConnectError], hence an [HTTPError]: it goes
    to the [API error] clause, where reading [e.response] raises
    [AttributeError]; the run leaves with that exception, through no exit
    statement, and has no outcome. *)
Lemma dns_failure_is_not_unexpected_error :
  let r := handle_call_tool "ask_perplexity" Sample.arguments Sample.dns_failure in
  isinstance (new ConnectError "[Errno -2] Name or service not known") Exception = true /\
  snd r = Raises (new AttributeError
                    "'ConnectError' object has no attribute 'response'") /\
  exits (fst r) = [] /\
  outcome_of r = None /\
  forall message, outcome_of r <> Some (UnexpectedError message).
Proof.
  cbv zeta. repeat split. intros message H. discriminate H.
Qed.

(** With an error object whose [response] is [None] the same failure is an
    [UpstreamError]. *)
Lemma dns_failure_with_none_is_api_error :
  outcome_of (handle_call_tool "ask_perplexity" Sample.arguments
                Sample.dns_failure_with_none) =
    Some (UpstreamError "API error: [Errno -2] Name or service not known").
Proof. reflexivity. Qed.

(** No [HTTPError] ever reaches the [Unexpected error] clause. *)
Lemma http_error_never_unexpected (e : exn) (w : world) :
  isinstance e HTTPError = true ->
  fst (on_error e w) <> [ExitAt line_151].
Proof.
  intros Hh. unfold on_error; step_handler.
  destruct (isinstance e TimeoutException); [discriminate |].
  rewrite Hh. destruct (response e); discriminate.
Qed.

(** ** Cancellation *)

(** C7, as the handler has it: when the caller cancels while the request is
    awaited, the handler cancels the request task and awaits it before
    anything else; if that await ends by cancellation or with a response
    that arrived late, the handler returns the cancellation text (outcome
    [Cancelled]) and the late response is not reported; an exception other
    than [CancelledError] raised by that await is not swallowed: it goes to
    the clauses of the outer [try]. *)
Theorem cancellation_cancels_and_awaits_task
  (arguments : value) (w : world) (e : exn) :
  request_context w = Ok tt ->
  shield_outcome w = Raises e ->
  isinstance e CancelledError = true ->
  (exists rest,
     fst (handle_call_tool "ask_perplexity" arguments w) =
       (until_await w arguments ++ [TaskCancel; AwaitTask] ++ rest)%list) /\
  (torn_down (teardown_outcome w) = true ->
     snd (handle_call_tool "ask_perplexity" arguments w) =
       Ok [ types.mkTextContent "text" "Request was cancelled by the client." ] /\
     exits (fst (handle_call_tool "ask_perplexity" arguments w)) = [line_131] /\
     outcome_of (handle_call_tool "ask_perplexity" arguments w) = Some Cancelled) /\
  (forall e',
     teardown_outcome w = Raises e' ->
     isinstance e' CancelledError = false ->
     snd (handle_call_tool "ask_perplexity" arguments w) = snd (on_error e' w)).
Proof.
  intros Hctx Hs Hc. split; [| split].
  - destruct (torn_down (teardown_outcome w)) eqn:Ht.
    + rewrite run_cancelled with (e := e) by assumption.
      exists [ExitAt line_131; ClientExit]. reflexivity.
    + destruct (teardown_outcome w) as [r' | e'] eqn:Hd; [discriminate Ht |].
      cbn [torn_down] in Ht.
      rewrite run_cancelled_failure with (e := e) (e' := e') by assumption.
      exists (ClientExit :: fst (on_error e' w)). reflexivity.
  - intro Ht. rewrite run_cancelled with (e := e) by assumption.
    repeat split.
  - intros e' Hd Hc'.
    rewrite run_cancelled_failure with (e := e) (e' := e') by assumption.
    reflexivity.
Qed.

Lemma cancellation_witness :
  snd (handle_call_tool "ask_perplexity" Sample.arguments Sample.cancelled) =
    Ok [ types.mkTextContent "text" "Request was cancelled by the client." ] /\
  exits (fst (handle_call_tool "ask_perplexity" Sample.arguments Sample.cancelled)) =
    [line_131] /\
  outcome_of (handle_call_tool "ask_perplexity" Sample.arguments Sample.cancelled) =
    Some Cancelled.
Proof.
  apply (cancellation_cancels_and_awaits_task Sample.arguments Sample.cancelled
           (e := new CancelledError "")); reflexivity.
Defined.

(** Cancelled while the request task had failed with a timeout: the handler
    cancels and awaits the task, the await raises the timeout, and the
    invocation is reported as timed out, not as cancelled. *)
Lemma cancellation_then_late_failure_is_reported :
  let r := handle_call_tool "ask_perplexity" Sample.arguments
             Sample.cancelled_after_failure in
  shield_outcome Sample.cancelled_after_failure = Raises (new CancelledError "") /\
  fst r = (until_await Sample.cancelled_after_failure Sample.arguments
             ++ [TaskCancel; AwaitTask; ClientExit; ExitAt line_139])%list /\
  snd r = Ok [ types.mkTextContent "text"
                 "Request timed out after 60.0 seconds. Please try again." ] /\
  outcome_of r = Some (TimedOut DEFAULT_TIMEOUT) /\
  outcome_of r <> Some Cancelled.
Proof.
  cbv zeta. repeat split. discriminate.
Qed.

(** ** Totality of the classification *)

Lemma classified_not_cancelled {A} (r : result A) (e : exn) :
  classified true r = true ->
  r = Raises e ->
  isinstance e CancelledError = false ->
  handled e = true.
Proof.
  intros H -> Hc. cbn [classified] in H. rewrite Hc in H. exact H.
Qed.

Lemma one_outcome (r : run (list types.TextContent)) (o : Outcome) :
  outcome_of r = Some o -> exists! o', outcome_of r = Some o'.
Proof.
  intro H. exists o. split; [exact H |].
  intros o' H'. congruence.
Qed.

(** A handled exception at the end of a run gives the run one exit and one
    outcome. *)
Lemma run_ending_in_on_error (before : list step) (e : exn) (w : world) :
  exits before = [] ->
  handled e = true ->
  exists o,
    outcome_of ((before ++ fst (on_error e w))%list, snd (on_error e w)) = Some o /\
    length (exits (before ++ fst (on_error e w))) = 1.
Proof.
  intros Hb Hh.
  destruct (@on_error_handled e w Hh) as (s & o & Hfst & Hout).
  exists o. rewrite Hfst. split.
  - rewrite outcome_of_single by (reflexivity || exact Hb). exact Hout.
  - rewrite exits_app, Hb. reflexivity.
Qed.

(** C1, as the handler has it: an invocation of [ask_perplexity] in which
    every exception raised is cancellation at an await or an exception the
    outer clauses handle leaves through exactly one exit statement and has
    exactly one of the five outcomes; an invocation with any other name
    leaves through the raise of line 90, with [ValueError] and none of the
    five. *)
Theorem classified_invocation_has_one_outcome
  (name : string) (arguments : value) (w : world) :
  classifiable w = true ->
  length (exits (fst (handle_call_tool name arguments w))) = 1 /\
  (name = "ask_perplexity" ->
     exists! o, outcome_of (handle_call_tool name arguments w) = Some o) /\
  (name <> "ask_perplexity" ->
     outcome_of (handle_call_tool name arguments w) = None /\
     snd (handle_call_tool name arguments w) =
       Raises (new ValueError ("Unknown tool: " ++ name))).
Proof.
  intro Hw.
  destruct (string_dec name "ask_perplexity") as [-> | Hname].
  2:{ rewrite run_unknown by exact Hname.
      split; [reflexivity |]. split; [contradiction |].
      intros _. split; reflexivity. }
  assert (H : exists o,
             outcome_of (handle_call_tool "ask_perplexity" arguments w) = Some o /\
    length (exits (fst (handle_call_tool "ask_perplexity" arguments w))) = 1).
  { unfold classifiable in Hw.
    apply andb_prop in Hw. destruct Hw as [Hctx Hw].
    apply andb_prop in Hw. destruct Hw as [Hs Hd].
    destruct (request_context w) as [[] | e0] eqn:Ectx.
    - destruct (shield_outcome w) as [r | e] eqn:Es.
      + destruct (httpx.is_success r) eqn:H2xx.
        * rewrite run_answered with (r := r) by assumption.
          eexists. split; reflexivity.
        * rewrite run_status_error with (r := r) by assumption.
          eexists. split; reflexivity.
      + destruct (isinstance e CancelledError) eqn:Hc.
        * destruct (torn_down (teardown_outcome w)) eqn:Ht.
          -- rewrite run_cancelled with (e := e) by assumption.
             eexists. split; reflexivity.
          -- destruct (teardown_outcome w) as [r' | e'] eqn:Ed; [discriminate Ht |].
             cbn [torn_down] in Ht.
             rewrite run_cancelled_failure with (e := e) (e' := e') by assumption.
             cbn [fst]. rewrite app_assoc.
             apply run_ending_in_on_error; [reflexivity |].
             apply classified_not_cancelled with (r := Raises (A := httpx.Response) e');
               auto.
        * rewrite run_raised with (e := e) by assumption.
          cbn [fst].
          change (until_await w arguments ++ ClientExit :: fst (on_error e w))%list
            with (until_await w arguments ++ [ClientExit] ++ fst (on_error e w))%list.
          rewrite app_assoc.
          apply run_ending_in_on_error; [reflexivity |].
          apply classified_not_cancelled with (r := Raises (A := httpx.Response) e);
            auto.
    - rewrite run_no_context with (e := e0) by exact Ectx.
      cbn [classified andb orb] in Hctx.
      apply (@run_ending_in_on_error [ReadRequestContext] e0 w); [reflexivity | exact Hctx]. }
  destruct H as (o & Hout & Hlen).
  split; [exact Hlen |]. split.
  - intros _. apply one_outcome with (o := o). exact Hout.
  - intro Hne. contradiction Hne. reflexivity.
Qed.

Lemma classified_invocation_witness :
  length (exits (fst (handle_call_tool "ask_perplexity" Sample.arguments
                        Sample.unauthorized))) = 1 /\
  (exists! o, outcome_of (handle_call_tool "ask_perplexity" Sample.arguments
                            Sample.unauthorized) = Some o).
Proof.
  destruct (classified_invocation_has_one_outcome "ask_perplexity" Sample.arguments
              Sample.unauthorized) as (Hlen & Hone & _).
  - reflexivity.
  - split; [exact Hlen | apply Hone; reflexivity].
Defined.

(** An unregistered name ends in none of the five outcomes. *)
Lemma unknown_operation_has_no_outcome :
  let r := handle_call_tool "ask_google" Sample.arguments Sample.answered in
  snd r = Raises (new ValueError "Unknown tool: ask_google") /\
  outcome_of r = None /\
  ~ exists o, outcome_of r = Some o.
Proof.
  cbv zeta. repeat split. intros [o H]. discriminate H.
Qed.

(** ** Every path of an invocation *)

(** What the clauses of the outer [try] can do: return the timeout text,
    raise one of the two [RuntimeError]s, or let an exception through. *)
Lemma on_error_shape (e : exn) (w : world) :
  on_error e w = ([ExitAt line_139], Ok [ types.mkTextContent "text" timed_out_text ]) \/
  (exists m, on_error e w =
               ([ExitAt line_149], Raises (new RuntimeError ("API error: " ++ m)))) \/
  on_error e w =
    ([ExitAt line_151], Raises (new RuntimeError ("Unexpected error: " ++ str e))) \/
  (exists e', on_error e w = ([], Raises e')).
Proof.
  destruct (isinstance e TimeoutException) eqn:Ht.
  - left. apply on_error_timeout. exact Ht.
  - destruct (isinstance e HTTPError) eqn:Hh.
    + destruct (response e) as [ | | r] eqn:Hr.
      * right. right. right. eexists. apply on_error_response_missing; assumption.
      * right. left. eexists. apply on_error_response_none; assumption.
      * right. left. eexists.
        rewrite on_error_with_response with (r := r) by assumption. reflexivity.
    + destruct (isinstance e Exception) eqn:He.
      * right. right. left. apply on_error_exception; assumption.
      * right. right. right. exists e. apply on_error_uncaught. exact He.
Qed.

(** The six paths of an invocation of [ask_perplexity]. *)
Lemma run_paths (arguments : value) (w : world) :
  (exists e,
     request_context w = Raises e /\
     handle_call_tool "ask_perplexity" arguments w =
       (ReadRequestContext :: fst (on_error e w), snd (on_error e w))) \/
  (exists r,
     request_context w = Ok tt /\ shield_outcome w = Ok r /\
     httpx.is_success r = true /\
     handle_call_tool "ask_perplexity" arguments w =
       ((until_await w arguments ++ [ExitAt line_116; ClientExit])%list,
        Ok [ types.mkTextContent "text" (httpx.text r) ])) \/
  (exists r,
     request_context w = Ok tt /\ shield_outcome w = Ok r /\
     httpx.is_success r = false /\
     handle_call_tool "ask_perplexity" arguments w =
       ((until_await w arguments ++ [ClientExit; ExitAt line_149])%list,
        Raises (new RuntimeError
                  ("API error: " ++ status_error_message w r ++ backslash_n
                     ++ "Response: " ++ httpx.text r)))) \/
  (exists e,
     request_context w = Ok tt /\ shield_outcome w = Raises e /\
     isinstance e CancelledError = false /\
     handle_call_tool "ask_perplexity" arguments w =
       ((until_await w arguments ++ ClientExit :: fst (on_error e w))%list,
        snd (on_error e w))) \/
  (exists e,
     request_context w = Ok tt /\ shield_outcome w = Raises e /\
     isinstance e CancelledError = true /\
     torn_down (teardown_outcome w) = true /\
     handle_call_tool "ask_perplexity" arguments w =
       ((until_await w arguments
           ++ [TaskCancel; AwaitTask; ExitAt line_131; ClientExit])%list,
        Ok [ types.mkTextContent "text" cancelled_text ])) \/
  (exists e e',
     request_context w = Ok tt /\ shield_outcome w = Raises e /\
     isinstance e CancelledError = true /\
     teardown_outcome w = Raises e' /\ isinstance e' CancelledError = false /\
     handle_call_tool "ask_perplexity" arguments w =
       ((until_await w arguments
           ++ [TaskCancel; AwaitTask; ClientExit] ++ fst (on_error e' w))%list,
        snd (on_error e' w))).
Proof.
  destruct (request_context w) as [[] | e0] eqn:Hctx.
  2:{ left. exists e0. split; [reflexivity |]. apply run_no_context. exact Hctx. }
  right.
  destruct (shield_outcome w) as [r | e] eqn:Hs.
  - destruct (httpx.is_success r) eqn:H2xx.
    + left. exists r. repeat split; try assumption.
      apply run_answered; assumption.
    + right. left. exists r. repeat split; try assumption.
      apply run_status_error; assumption.
  - right. right.
    destruct (isinstance e CancelledError) eqn:Hc.
    + right.
      destruct (torn_down (teardown_outcome w)) eqn:Ht.
      * left. exists e. repeat split; try assumption.
        apply run_cancelled with (e := e); assumption.
      * right. destruct (teardown_outcome w) as [r' | e'] eqn:Hd; [discriminate Ht |].
        cbn [torn_down] in Ht. exists e, e'. repeat split; try assumption.
        apply run_cancelled_failure with (e := e); assumption.
    + left. exists e. repeat split; try assumption.
      apply run_raised; assumption.
Qed.

(** ** When the network is touched *)

(** A request is created exactly when the name is [ask_perplexity] and the
    request context could be read, and never more than one per invocation:
    the handler itself does not retry, whatever the request ends in. *)
Theorem request_created_iff_dispatched
  (name : string) (arguments : value) (w : world) :
  (requests (fst (handle_call_tool name arguments w)) <> [] <->
     name = "ask_perplexity" /\ request_context w = Ok tt) /\
  length (requests (fst (handle_call_tool name arguments w))) <= 1.
Proof.
  destruct (string_dec name "ask_perplexity") as [-> | Hname].
  - destruct (request_context w) as [[] | e0] eqn:Hctx.
    + rewrite requests_of_run by exact Hctx. split; [| cbn; lia].
      split; [intros _; split; reflexivity | intros _; discriminate].
    + rewrite run_no_context with (e := e0) by exact Hctx.
      cbn [fst requests]. rewrite on_error_requests. split; [| cbn; lia].
      split; [intro H; contradiction H; reflexivity | intros [_ H]; discriminate H].
  - rewrite run_unknown by exact Hname. cbn [fst requests]. split; [| cbn; lia].
    split; [intro H; contradiction H; reflexivity | intros [H _]; contradiction].
Qed.

Lemma client_discipline_on_error (e : exn) (w : world) :
  client_discipline false (fst (on_error e w)) = true.
Proof.
  destruct (on_error_shape e w) as [H | [[m H] | [H | [e' H]]]];
    rewrite H; reflexivity.
Qed.

(** On every path, for every name and world, the client is closed when the
    handler leaves, and the request task is created, awaited and cancelled
    only while the client is open: [async with] releases the client
    whether the body returns, raises or is cancelled. *)
Theorem client_closed_on_every_path
  (name : string) (arguments : value) (w : world) :
  client_discipline false (fst (handle_call_tool name arguments w)) = true.
Proof.
  destruct (string_dec name "ask_perplexity") as [-> | Hname].
  2:{ rewrite run_unknown by exact Hname. reflexivity. }
  destruct (run_paths arguments w)
    as [ (e & _ & Hr) | [ (r & _ & _ & _ & Hr) | [ (r & _ & _ & _ & Hr)
       | [ (e & _ & _ & _ & Hr) | [ (e & _ & _ & _ & _ & Hr)
       | (e & e' & _ & _ & _ & _ & _ & Hr) ]]]]];
    rewrite Hr; cbn [fst]; try reflexivity.
  - cbn [client_discipline]. apply client_discipline_on_error.
  - unfold until_await. cbn [app client_discipline andb negb].
    apply client_discipline_on_error.
  - unfold until_await. cbn [app client_discipline andb negb].
    apply client_discipline_on_error.
Qed.

Lemma no_cancel_in_on_error (e : exn) (w : world) :
  ~ In TaskCancel (fst (on_error e w)).
Proof.
  destruct (on_error_shape e w) as [H | [[m H] | [H | [e' H]]]];
    rewrite H; cbn; intuition discriminate.
Qed.

(** The handler cancels the request task exactly when the await of the
    shielded task was interrupted by [CancelledError]: a timeout, an error
    answer or any other failure never makes it cancel the task. *)
Theorem task_cancelled_iff_caller_cancelled
  (name : string) (arguments : value) (w : world) :
  In TaskCancel (fst (handle_call_tool name arguments w)) <->
  name = "ask_perplexity" /\
  request_context w = Ok tt /\
  exists e, shield_outcome w = Raises e /\ isinstance e CancelledError = true.
Proof.
  destruct (string_dec name "ask_perplexity") as [-> | Hname].
  2:{ rewrite run_unknown by exact Hname. cbn.
      split; [intuition discriminate | intros [H _]; contradiction]. }
  destruct (run_paths arguments w)
    as [ (e & Hctx & Hr) | [ (r & Hctx & Hs & _ & Hr) | [ (r & Hctx & Hs & _ & Hr)
       | [ (e & Hctx & Hs & Hc & Hr) | [ (e & Hctx & Hs & Hc & _ & Hr)
       | (e & e' & Hctx & Hs & Hc & _ & _ & Hr) ]]]]];
    rewrite Hr; cbn [fst].
  - split.
    + cbn [In]. intros [H | H]; [discriminate H |].
      exfalso. exact (no_cancel_in_on_error _ _ H).
    + intros (_ & H & _). congruence.
  - split.
    + cbn. intuition discriminate.
    + intros (_ & _ & e & H & _). congruence.
  - split.
    + cbn. intuition discriminate.
    + intros (_ & _ & e & H & _). congruence.
  - split.
    + unfold until_await. cbn [app In].
      intros [H | [H | [H | [H | [H | [H | H]]]]]]; try discriminate H.
      exfalso. exact (no_cancel_in_on_error _ _ H).
    + intros (_ & _ & e1 & H & Hc1). congruence.
  - split.
    + intros _. split; [reflexivity |]. split; [exact Hctx |]. exists e. split; assumption.
    + intros _. apply in_or_app. right. left. reflexivity.
  - split.
    + intros _. split; [reflexivity |]. split; [exact Hctx |]. exists e. split; assumption.
    + intros _. apply in_or_app. right. left. reflexivity.
Qed.

(** ** The credential *)

(** When [PERPLEXITY_API_KEY] is not set, [getenv] gave [None] and the
    handler does not check it: the request is created all the same, with the
    header [Authorization: Bearer None]. *)
Theorem unset_credential_sends_bearer_none (arguments : value) (w : world) :
  request_context w = Ok tt ->
  PERPLEXITY_API_KEY w = None ->
  requests (fst (handle_call_tool "ask_perplexity" arguments w)) =
    [ httpx.mkRequest "POST" "https://api.perplexity.ai/chat/completions"
        [ ("Authorization", "Bearer None");
          ("Content-Type", "application/json") ]
        arguments DEFAULT_TIMEOUT ].
Proof.
  intros Hctx Hkey. rewrite requests_of_run by exact Hctx.
  unfold post_request. rewrite Hkey. reflexivity.
Qed.

Lemma unset_credential_witness :
  requests (fst (handle_call_tool "ask_perplexity" Sample.arguments
                   Sample.no_credential)) =
    [ httpx.mkRequest "POST" "https://api.perplexity.ai/chat/completions"
        [ ("Authorization", "Bearer None");
          ("Content-Type", "application/json") ]
        Sample.arguments DEFAULT_TIMEOUT ].
Proof.
  apply (unset_credential_sends_bearer_none Sample.arguments Sample.no_credential);
    reflexivity.
Defined.

(** ** Exceptions that leave the handler as they are *)

Lemma http_error_is_not_cancellation (e : exn) :
  isinstance e HTTPError = true -> isinstance e CancelledError = false.
Proof.
  intro H. apply exception_is_not_cancellation.
  apply http_error_is_exception. exact H.
Qed.

(** An [httpx.HTTPError] other than a timeout whose object has no
    [response] attribute does not become an [API error]: evaluating
    [e.response] on line 147 raises [AttributeError], which leaves the
    handler, after the client is closed, through no exit statement and with
    no outcome. *)
Theorem http_error_without_response_escapes
  (arguments : value) (w : world) (e : exn) :
  request_context w = Ok tt ->
  shield_outcome w = Raises e ->
  isinstance e HTTPError = true ->
  isinstance e TimeoutException = false ->
  response e = Missing ->
  handle_call_tool "ask_perplexity" arguments w =
    ((until_await w arguments ++ [ClientExit])%list,
     Raises (new AttributeError
               ("'" ++ class_name (class_of e)
                    ++ "' object has no attribute 'response'"))) /\
  outcome_of (handle_call_tool "ask_perplexity" arguments w) = None.
Proof.
  intros Hctx Hs Hh Ht Hr.
  rewrite run_raised with (e := e)
    by (try apply http_error_is_not_cancellation; assumption).
  rewrite on_error_response_missing by assumption.
  split; reflexivity.
Qed.

Lemma http_error_without_response_witness :
  handle_call_tool "ask_perplexity" Sample.arguments Sample.dns_failure =
    ((until_await Sample.dns_failure Sample.arguments ++ [ClientExit])%list,
     Raises (new AttributeError "'ConnectError' object has no attribute 'response'")) /\
  outcome_of (handle_call_tool "ask_perplexity" Sample.arguments Sample.dns_failure) =
    None.
Proof.
  apply (http_error_without_response_escapes Sample.arguments Sample.dns_failure
           (e := new ConnectError "[Errno -2] Name or service not known"));
    reflexivity.
Defined.

(** ** The shape of what the handler gives back *)

(** Whatever the handler returns is a list of exactly one text content, and
    it was returned by one of the three [return] statements: lines 116, 131
    and 139. *)
Theorem returned_value_is_one_text
  (name : string) (arguments : value) (w : world) (l : list types.TextContent) :
  snd (handle_call_tool name arguments w) = Ok l ->
  exists (t : string) (s : site),
    l = [ types.mkTextContent "text" t ] /\
    exits (fst (handle_call_tool name arguments w)) = [s] /\
    (s = line_116 \/ s = line_131 \/ s = line_139).
Proof.
  destruct (string_dec name "ask_perplexity") as [-> | Hname].
  2:{ rewrite run_unknown by exact Hname. intro H. discriminate H. }
  assert (Herr : forall before e,
             exits before = [] ->
             snd (on_error e w) = Ok l ->
             exists t s, l = [ types.mkTextContent "text" t ] /\
                         exits (before ++ fst (on_error e w)) = [s] /\
                         (s = line_116 \/ s = line_131 \/ s = line_139)).
  { intros before e Hb H.
    destruct (on_error_shape e w) as [Hs | [[m Hs] | [Hs | [e' Hs]]]];
      rewrite Hs in H |- *; cbn [snd fst] in *; try discriminate H.
    injection H as <-. exists timed_out_text, line_139.
    rewrite exits_app, Hb. auto. }
  destruct (run_paths arguments w)
    as [ (e & _ & Hr) | [ (r & _ & _ & _ & Hr) | [ (r & _ & _ & _ & Hr)
       | [ (e & _ & _ & _ & Hr) | [ (e & _ & _ & _ & _ & Hr)
       | (e & e' & _ & _ & _ & _ & _ & Hr) ]]]]];
    rewrite Hr; cbn [fst snd]; intro H.
  - apply (Herr [ReadRequestContext] e); [reflexivity | exact H].
  - injection H as <-. exists (httpx.text r), line_116. auto.
  - discriminate H.
  - change (until_await w arguments ++ ClientExit :: fst (on_error e w))%list
      with (until_await w arguments ++ [ClientExit] ++ fst (on_error e w))%list.
    rewrite app_assoc. apply Herr; [reflexivity | exact H].
  - injection H as <-. exists cancelled_text, line_131. auto.
  - rewrite app_assoc. apply Herr; [reflexivity | exact H].
Qed.

Lemma returned_value_witness :
  exists (t : string) (s : site),
    [ types.mkTextContent "text" cancelled_text ] = [ types.mkTextContent "text" t ] /\
    exits (fst (handle_call_tool "ask_perplexity" Sample.arguments Sample.cancelled)) =
      [s] /\
    (s = line_116 \/ s = line_131 \/ s = line_139).
Proof.
  apply (returned_value_is_one_text "ask_perplexity" Sample.arguments Sample.cancelled).
  reflexivity.
Defined.

(** Whatever the handler raises through one of its own [raise] statements
    while executing [ask_perplexity] is a [RuntimeError]: from line 149 with
    a message that starts [API error: ], or from line 151 with
    [Unexpected error: ] followed by the text of the original exception. *)
Theorem raised_by_handler_is_runtime_error
  (arguments : value) (w : world) (e : exn) (s : site) :
  snd (handle_call_tool "ask_perplexity" arguments w) = Raises e ->
  exits (fst (handle_call_tool "ask_perplexity" arguments w)) = [s] ->
  class_of e = RuntimeError /\
  ((s = line_149 /\ exists m, str e = "API error: " ++ m) \/
   (s = line_151 /\ exists m, str e = "Unexpected error: " ++ m)).
Proof.
  assert (Herr : forall before e0,
             exits before = [] ->
             snd (on_error e0 w) = Raises e ->
             exits (before ++ fst (on_error e0 w)) = [s] ->
             class_of e = RuntimeError /\
             ((s = line_149 /\ exists m, str e = "API error: " ++ m) \/
              (s = line_151 /\ exists m, str e = "Unexpected error: " ++ m))).
  { intros before e0 Hb H Hx. rewrite exits_app, Hb in Hx. cbn [app] in Hx.
    destruct (on_error_shape e0 w) as [Hs | [[m Hs] | [Hs | [e' Hs]]]];
      rewrite Hs in H, Hx; cbn [snd fst exits] in *; try discriminate.
    - injection H as <-. injection Hx as <-. split; [reflexivity |].
      left. split; [reflexivity |]. exists m. reflexivity.
    - injection H as <-. injection Hx as <-. split; [reflexivity |].
      right. split; [reflexivity |]. exists (str e0). reflexivity. }
  destruct (run_paths arguments w)
    as [ (e0 & _ & Hr) | [ (r & _ & _ & _ & Hr) | [ (r & _ & _ & _ & Hr)
       | [ (e0 & _ & _ & _ & Hr) | [ (e0 & _ & _ & _ & _ & Hr)
       | (e0 & e' & _ & _ & _ & _ & _ & Hr) ]]]]];
    rewrite Hr; cbn [fst snd]; intros H Hx.
  - apply (Herr [ReadRequestContext] e0); [reflexivity | exact H | exact Hx].
  - discriminate H.
  - injection H as <-. injection Hx as <-. split; [reflexivity |].
    left. split; [reflexivity |]. eexists. reflexivity.
  - change (until_await w arguments ++ ClientExit :: fst (on_error e0 w))%list
      with (until_await w arguments ++ [ClientExit] ++ fst (on_error e0 w))%list in Hx.
    rewrite app_assoc in Hx. apply (Herr _ e0) in Hx; [exact Hx | reflexivity | exact H].
  - discriminate H.
  - rewrite app_assoc in Hx. apply (Herr _ e') in Hx; [exact Hx | reflexivity | exact H].
Qed.

Lemma raised_by_handler_witness :
  class_of (new RuntimeError
              "Unexpected error: Object of type set is not JSON serializable") =
    RuntimeError /\
  ((line_151 = line_149 /\
    exists m, "Unexpected error: Object of type set is not JSON serializable" =
                "API error: " ++ m) \/
   (line_151 = line_151 /\
    exists m, "Unexpected error: Object of type set is not JSON serializable" =
                "Unexpected error: " ++ m)).
Proof.
  apply (raised_by_handler_is_runtime_error Sample.arguments Sample.type_error
           (e := new RuntimeError
                   "Unexpected error: Object of type set is not JSON serializable")
           (s := line_151)); reflexivity.
Defined.

(** ** Cancellation against the other outcomes *)

(** The clauses of the outer [try] read nothing of the world. *)
Lemma on_error_any_world (e : exn) (w w' : world) : on_error e w = on_error e w'.
Proof.
  unfold on_error; step_handler.
  destruct (isinstance e TimeoutException); [reflexivity |].
  destruct (isinstance e HTTPError).
  - destruct (response e); reflexivity.
  - destruct (isinstance e Exception); reflexivity.
Qed.

(** When the caller cancels and the awaited task turns out to have failed
    with an exception other than [CancelledError], the cancellation leaves no
    mark on the result: the handler gives back exactly what it gives when the
    same exception is raised by the request and nobody cancels, with the same
    outcome. *)
Theorem late_failure_reported_as_if_not_cancelled
  (arguments : value) (w w' : world) (e e' : exn) :
  request_context w = Ok tt ->
  shield_outcome w = Raises e ->
  isinstance e CancelledError = true ->
  teardown_outcome w = Raises e' ->
  isinstance e' CancelledError = false ->
  request_context w' = Ok tt ->
  shield_outcome w' = Raises e' ->
  snd (handle_call_tool "ask_perplexity" arguments w) =
    snd (handle_call_tool "ask_perplexity" arguments w') /\
  outcome_of (handle_call_tool "ask_perplexity" arguments w) =
    outcome_of (handle_call_tool "ask_perplexity" arguments w').
Proof.
  intros Hctx Hs Hc Hd Hc' Hctx' Hs'.
  rewrite run_cancelled_failure with (w := w) (e := e) (e' := e') by assumption.
  rewrite run_raised with (w := w') (e := e') by assumption.
  rewrite (on_error_any_world e' w w').
  split; [reflexivity |].
  unfold outcome_of. cbn [fst snd].
  rewrite !exits_app, !exits_until_await. reflexivity.
Qed.

Lemma late_failure_witness :
  snd (handle_call_tool "ask_perplexity" Sample.arguments
         Sample.cancelled_after_failure) =
    snd (handle_call_tool "ask_perplexity" Sample.arguments Sample.read_timeout) /\
  outcome_of (handle_call_tool "ask_perplexity" Sample.arguments
                Sample.cancelled_after_failure) =
    outcome_of (handle_call_tool "ask_perplexity" Sample.arguments Sample.read_timeout).
Proof.
  apply (late_failure_reported_as_if_not_cancelled Sample.arguments
           Sample.cancelled_after_failure Sample.read_timeout
           (e := new CancelledError "") (e' := new ReadTimeout ""));
    reflexivity.
Defined.

(** The value the handler returns carries no tag: an upstream answer whose
    body is the text of the cancellation message gives back the very value a
    cancelled invocation gives back, although the two runs end in different
    outcomes. *)
Theorem success_result_can_equal_cancellation_result
  (arguments : value) (w1 w2 : world) (r : httpx.Response) (e : exn) :
  request_context w1 = Ok tt ->
  shield_outcome w1 = Ok r ->
  (200 <= httpx.status_code r <= 299)%Z ->
  httpx.text r = "Request was cancelled by the client." ->
  request_context w2 = Ok tt ->
  shield_outcome w2 = Raises e ->
  isinstance e CancelledError = true ->
  torn_down (teardown_outcome w2) = true ->
  snd (handle_call_tool "ask_perplexity" arguments w1) =
    snd (handle_call_tool "ask_perplexity" arguments w2) /\
  outcome_of (handle_call_tool "ask_perplexity" arguments w1) =
    Some (Success "Request was cancelled by the client.") /\
  outcome_of (handle_call_tool "ask_perplexity" arguments w2) = Some Cancelled.
Proof.
  intros Hctx1 Hs1 H2xx Htext Hctx2 Hs2 Hc Ht.
  apply is_success_2xx in H2xx.
  rewrite run_answered with (w := w1) (r := r) by assumption.
  rewrite run_cancelled with (w := w2) (e := e) by assumption.
  rewrite Htext. repeat split.
Qed.

Lemma success_result_witness :
  snd (handle_call_tool "ask_perplexity" Sample.arguments Sample.echo_of_cancellation) =
    snd (handle_call_tool "ask_perplexity" Sample.arguments Sample.cancelled) /\
  outcome_of (handle_call_tool "ask_perplexity" Sample.arguments
                Sample.echo_of_cancellation) =
    Some (Success "Request was cancelled by the client.") /\
  outcome_of (handle_call_tool "ask_perplexity" Sample.arguments Sample.cancelled) =
    Some Cancelled.
Proof.
  apply (success_result_can_equal_cancellation_result Sample.arguments
           Sample.echo_of_cancellation Sample.cancelled
           (r := httpx.mkResponse 200 cancelled_text) (e := new CancelledError ""));
    first [ reflexivity | cbn; lia ].
Defined.

(** ** Registry and dispatch *)

Lemma dispatched_run_avoids_line_90 (arguments : value) (w : world) :
  exits (fst (handle_call_tool "ask_perplexity" arguments w)) <> [line_90].
Proof.
  assert (Herr : forall before e,
             exits before = [] ->
             exits (before ++ fst (on_error e w)) <> [line_90]).
  { intros before e Hb. rewrite exits_app, Hb.
    destruct (on_error_shape e w) as [Hs | [[m Hs] | [Hs | [e' Hs]]]];
      rewrite Hs; discriminate. }
  destruct (run_paths arguments w)
    as [ (e & _ & Hr) | [ (r & _ & _ & _ & Hr) | [ (r & _ & _ & _ & Hr)
       | [ (e & _ & _ & _ & Hr) | [ (e & _ & _ & _ & _ & Hr)
       | (e & e' & _ & _ & _ & _ & _ & Hr) ]]]]];
    rewrite Hr; cbn [fst]; try discriminate.
  - apply (Herr [ReadRequestContext] e). reflexivity.
  - change (until_await w arguments ++ ClientExit :: fst (on_error e w))%list
      with (until_await w arguments ++ [ClientExit] ++ fst (on_error e w))%list.
    rewrite app_assoc. apply Herr. reflexivity.
  - rewrite app_assoc. apply Herr. reflexivity.
Qed.

(** The registry and the dispatcher agree: the handler refuses a name with
    the [Unknown tool] error of line 90 exactly when the name is not among
    the names [handle_list_tools] publishes. *)
Theorem unknown_tool_iff_not_listed
  (name : string) (arguments : value) (w w' : world) (tools : list types.Tool) :
  snd (handle_list_tools w') = Ok tools ->
  (exits (fst (handle_call_tool name arguments w)) = [line_90] <->
   ~ In name (map types.name tools)).
Proof.
  intro H. cbn in H. injection H as <-. cbn [map types.name In].
  destruct (string_dec name "ask_perplexity") as [-> | Hname].
  - split.
    + intro H. exfalso. exact (dispatched_run_avoids_line_90 _ _ H).
    + intro H. exfalso. apply H. left. reflexivity.
  - rewrite run_unknown by exact Hname. split.
    + intros _ [H | []]. apply Hname. symmetry. exact H.
    + intros _. reflexivity.
Qed.

Lemma unknown_tool_witness :
  exits (fst (handle_call_tool "ask_google" Sample.arguments Sample.answered)) =
    [line_90] <->
  ~ In "ask_google"
      (map types.name
         [ types.mkTool "ask_perplexity" (dedent description_literal)
             inputSchema_literal ]).
Proof.
  apply (unknown_tool_iff_not_listed "ask_google" Sample.arguments Sample.answered
           (w' := Sample.answered)).
  reflexivity.
Defined.
